(** * Grid geometry of the GPU grid layer (gpu-grid-utils.js)

    A shallow embedding of
    [modules/experimental-layers/src/gpu-grid-layer/gpu-grid-utils.js]
    and the properties of its alignment, cell-size and point-scanning
    functions.

    JavaScript numbers are modelled as the reals extended with the three
    non-finite values [Infinity], [-Infinity] and [NaN].  A finite double is
    idealised as the real it denotes: rounding, overflow and the sign of
    zero are not modelled, so every finite operation is exact.  The order
    of the reals is decided by [Rlt_dec], which does not reduce: the value
    of a function at a concrete input is therefore stated and proved as a
    lemma.

    What the idealisation leaves out: in binary64 the quotient, the floor
    and the product of [alignToCellBoundary] are rounded, the offsets can
    underflow or overflow, and [Math.cos] is approximated.  Statements
    about exact cell boundaries are therefore statements of exact
    arithmetic.  Statements that rest on comparisons, on the
    propagation of [NaN] and of the infinities, or on the order of the
    buffers do not depend on rounding.  Module [Double] gives the two offset
    functions over binary64 for the one statement that needs them.

    The collaborators that the file imports ([fp64LowPart] of luma.gl,
    [Matrix4] of math.gl) and the aggregation engine it is handed are
    parameters, and total functions here: a call that throws, as
    [Matrix4.translate] of math.gl may on a vector with a [NaN] or infinite
    component, is not modelled, so the embedding describes the runs in
    which these calls return. *)

From Stdlib Require Import Reals Lra Lia List ZArith Zfloor Bool.
From Stdlib Require Floats.
Import ListNotations.

Local Open Scope R_scope.

(** ** JavaScript numbers *)

Module JS.

Inductive number : Type :=
| Fin (r : R)
| Infinity
| NegInfinity
| NaN.

Definition Rltb (x y : R) : bool := if Rlt_dec x y then true else false.

(** [Number.isFinite] *)
Definition Number_isFinite (a : number) : bool :=
  match a with
  | Fin _ => true
  | _ => false
  end.

(** [a < b]: every comparison with [NaN] is false. *)
Definition lt (a b : number) : bool :=
  match a, b with
  | Fin x, Fin y => Rltb x y
  | Fin _, Infinity => true
  | NegInfinity, Fin _ => true
  | NegInfinity, Infinity => true
  | _, _ => false
  end.

(** [a > b] *)
Definition gt (a b : number) : bool := lt b a.

(** unary minus *)
Definition neg (a : number) : number :=
  match a with
  | Fin x => Fin (- x)
  | Infinity => NegInfinity
  | NegInfinity => Infinity
  | NaN => NaN
  end.

(** [a + b] *)
Definition add (a b : number) : number :=
  match a, b with
  | Fin x, Fin y => Fin (x + y)
  | NaN, _ | _, NaN => NaN
  | Infinity, NegInfinity | NegInfinity, Infinity => NaN
  | Infinity, _ | _, Infinity => Infinity
  | NegInfinity, _ | _, NegInfinity => NegInfinity
  end.

(** [a - b] *)
Definition sub (a b : number) : number := add a (neg b).

(** The infinity carrying the sign of [x]; [NaN] when [x] is zero. *)
Definition signed_inf (x : R) : number :=
  if Rlt_dec 0 x then Infinity
  else if Rlt_dec x 0 then NegInfinity
  else NaN.

(** [a * b] *)
Definition mul (a b : number) : number :=
  match a, b with
  | Fin x, Fin y => Fin (x * y)
  | NaN, _ | _, NaN => NaN
  | Fin x, Infinity | Infinity, Fin x => signed_inf x
  | Fin x, NegInfinity | NegInfinity, Fin x => signed_inf (- x)
  | Infinity, Infinity | NegInfinity, NegInfinity => Infinity
  | Infinity, NegInfinity | NegInfinity, Infinity => NegInfinity
  end.

(** [a / b].  A finite value over zero is the infinity of the numerator's
    sign (the zero being read as [+0]), and [0 / 0] is [NaN]. *)
Definition div (a b : number) : number :=
  match a, b with
  | Fin x, Fin y => if Req_dec_T y 0 then signed_inf x else Fin (x / y)
  | NaN, _ | _, NaN => NaN
  | Fin _, Infinity | Fin _, NegInfinity => Fin 0
  | Infinity, Fin y => if Rlt_dec y 0 then NegInfinity else Infinity
  | NegInfinity, Fin y => if Rlt_dec y 0 then Infinity else NegInfinity
  | _, _ => NaN
  end.

(** [Math.abs] *)
Definition Math_abs (a : number) : number :=
  match a with
  | Fin x => Fin (Rabs x)
  | Infinity | NegInfinity => Infinity
  | NaN => NaN
  end.

(** [Math.floor] *)
Definition Math_floor (a : number) : number :=
  match a with
  | Fin x => Fin (IZR (Zfloor x))
  | _ => a
  end.

(** [Math.ceil] *)
Definition Math_ceil (a : number) : number :=
  match a with
  | Fin x => Fin (IZR (Zceil x))
  | _ => a
  end.

(** [Math.cos] *)
Definition Math_cos (a : number) : number :=
  match a with
  | Fin x => Fin (cos x)
  | _ => NaN
  end.

(** [Math.PI] *)
Definition Math_PI : number := Fin PI.

(** Reading index [i] of an array of numbers; a missing element is
    [undefined], which arithmetic and [Number.isFinite] treat as [NaN]. *)
Definition index (l : list number) (i : nat) : number := nth i l NaN.

End JS.

Import JS.

(** ** The module's functions *)

Definition R_EARTH : number := Fin 6378000.

(** Aligns [inValue] to given [cellSize]. *)
Definition alignToCellBoundary (inValue cellSize : number) : number :=
  let sign := if lt inValue (Fin 0) then Fin (-1) else Fin 1 in
  let value :=
    if lt sign (Fin 0) then add (Math_abs inValue) cellSize
    else Math_abs inValue in
  let value := mul (Math_floor (div value cellSize)) cellSize in
  mul value sign.

Definition _calculateLatOffset (dy : number) : number :=
  mul (div dy R_EARTH) (div (Fin 180) Math_PI).

Definition _calculateLonOffset (lat dx : number) : number :=
  div (mul (div dx R_EARTH) (div (Fin 180) Math_PI))
      (Math_cos (div (mul lat Math_PI) (Fin 180))).

(** The object [{yOffset, xOffset}]. *)
Module GridOffset.
Record t : Type := mk { yOffset : number; xOffset : number }.
End GridOffset.

(** The object returned by [_parseData]. *)
Module GridData.
Record t : Type := mk {
  positions : list number;
  positions64xyLow : list number;
  weights : list number;
  latMin : number;
  latMax : number;
  lngMin : number;
  lngMax : number
}.

Definition bounds (g : t) : number * number * number * number :=
  (latMin g, latMax g, lngMin g, lngMax g).
End GridData.

(** The object returned by [_getGPUAggregationParams]. *)
Module Opts.
Record t (Matrix : Type) : Type := mk {
  positions : list number;
  positions64xyLow : list number;
  weights : list number;
  cellSize : list number;
  gridOrigin : list number;
  width : number;
  height : number;
  gridTransformMatrix : Matrix;
  gridOffset : GridOffset.t
}.
Arguments mk {Matrix}.
Arguments positions {Matrix}.
Arguments positions64xyLow {Matrix}.
Arguments weights {Matrix}.
Arguments cellSize {Matrix}.
Arguments gridOrigin {Matrix}.
Arguments width {Matrix}.
Arguments height {Matrix}.
Arguments gridTransformMatrix {Matrix}.
Arguments gridOffset {Matrix}.
End Opts.

(** The argument of [gpuGridAggregator.run]. *)
Module RunArgs.
Record t (Matrix : Type) : Type := mk {
  positions : list number;
  positions64xyLow : list number;
  weights : list number;
  cellSize : list number;
  width : number;
  height : number;
  gridTransformMatrix : Matrix;
  useGPU : bool;
  fp64 : bool
}.
Arguments mk {Matrix}.
Arguments positions {Matrix}.
Arguments positions64xyLow {Matrix}.
Arguments weights {Matrix}.
Arguments cellSize {Matrix}.
Arguments width {Matrix}.
Arguments height {Matrix}.
Arguments gridTransformMatrix {Matrix}.
Arguments useGPU {Matrix}.
Arguments fp64 {Matrix}.
End RunArgs.

(** What [gpuGridAggregator.run] returns, as far as this module reads it. *)
Module Aggregated.
Record t (Buffer : Type) : Type := mk {
  countsBuffer : Buffer;
  maxCountBuffer : Buffer
}.
Arguments mk {Buffer}.
Arguments countsBuffer {Buffer}.
Arguments maxCountBuffer {Buffer}.
End Aggregated.

(** The object returned by [pointToDensityGridData]. *)
Module DensityGrid.
Record t (Buffer : Type) : Type := mk {
  countsBuffer : Buffer;
  maxCountBuffer : Buffer;
  gridSize : list number;
  gridOrigin : list number;
  gridOffset : list number
}.
Arguments mk {Buffer}.
Arguments countsBuffer {Buffer}.
Arguments maxCountBuffer {Buffer}.
Arguments gridSize {Buffer}.
Arguments gridOrigin {Buffer}.
Arguments gridOffset {Buffer}.
End DensityGrid.

Definition _calculateGridLatLonOffset (cellSize latitude : number)
  : GridOffset.t :=
  let yOffset := _calculateLatOffset cellSize in
  let xOffset := _calculateLonOffset latitude cellSize in
  GridOffset.mk yOffset xOffset.

Definition _getGridOffset (gridData : GridData.t) (cellSize : number)
  : GridOffset.t :=
  let latMin := GridData.latMin gridData in
  let latMax := GridData.latMax gridData in
  let centerLat := div (add latMin latMax) (Fin 2) in
  _calculateGridLatLonOffset cellSize centerLat.

Section Pipeline.

(** The imported collaborators: [fp64LowPart] of luma.gl, and
    [new Matrix4().translate(v)] of math.gl. *)
Variable fp64LowPart : number -> number.
Variable Matrix : Type.
Variable Matrix4_translate : list number -> Matrix.

(** The application's points, read only through the accessor
    [getPosition], which returns the array [[lng, lat]]. *)
Variable Point : Type.

(** The initial values of the locals of [_parseData]. *)
Definition _parseData_init : GridData.t :=
  GridData.mk [] [] [] Infinity NegInfinity Infinity NegInfinity.

(** One iteration of the loop of [_parseData]. *)
Definition _parseData_body (getPosition : Point -> number * number)
    (st : GridData.t) (point : Point) : GridData.t :=
  let pLng := fst (getPosition point) in
  let pLat := snd (getPosition point) in
  let positions := GridData.positions st ++ [pLng; pLat] in
  let positions64xyLow :=
    GridData.positions64xyLow st ++ [fp64LowPart pLng; fp64LowPart pLat] in
  let weights := GridData.weights st ++ [Fin 1] in
  let latMin := GridData.latMin st in
  let latMax := GridData.latMax st in
  let lngMin := GridData.lngMin st in
  let lngMax := GridData.lngMax st in
  if Number_isFinite pLat && Number_isFinite pLng then
    GridData.mk positions positions64xyLow weights
      (if lt pLat latMin then pLat else latMin)
      (if gt pLat latMax then pLat else latMax)
      (if lt pLng lngMin then pLng else lngMin)
      (if gt pLng lngMax then pLng else lngMax)
  else
    GridData.mk positions positions64xyLow weights
      latMin latMax lngMin lngMax.

(** The loop [for (let p = 0; p < data.length; p++)], from the state [st]. *)
Fixpoint _parseData_loop (getPosition : Point -> number * number)
    (data : list Point) (st : GridData.t) : GridData.t :=
  match data with
  | [] => st
  | point :: rest =>
      _parseData_loop getPosition rest (_parseData_body getPosition st point)
  end.

(** Parse input data to build positions and boundaries. *)
Definition _parseData (data : list Point)
    (getPosition : Point -> number * number) : GridData.t :=
  _parseData_loop getPosition data _parseData_init.

(** Calculate grid parameters. *)
Definition _getGPUAggregationParams (gridData : GridData.t)
    (gridOffset : GridOffset.t) : Opts.t Matrix :=
  let latMin := GridData.latMin gridData in
  let latMax := GridData.latMax gridData in
  let lngMin := GridData.lngMin gridData in
  let lngMax := GridData.lngMax gridData in
  let originY :=
    sub (alignToCellBoundary (add latMin (Fin 90))
           (GridOffset.yOffset gridOffset)) (Fin 90) in
  let originX :=
    sub (alignToCellBoundary (add lngMin (Fin 180))
           (GridOffset.xOffset gridOffset)) (Fin 180) in
  let gridTransformMatrix :=
    Matrix4_translate
      [mul (Fin (-1)) originX; mul (Fin (-1)) originY; Fin 0] in
  let cellSize :=
    [GridOffset.xOffset gridOffset; GridOffset.yOffset gridOffset] in
  let gridOrigin := [originX; originY] in
  let width := add (sub lngMax lngMin) (GridOffset.xOffset gridOffset) in
  let height := add (sub latMax latMin) (GridOffset.yOffset gridOffset) in
  Opts.mk (GridData.positions gridData)
    (GridData.positions64xyLow gridData)
    (GridData.weights gridData)
    cellSize gridOrigin width height gridTransformMatrix gridOffset.

(** The aggregation engine: an object with a [run] method. *)
Variable Buffer : Type.

Record Aggregator : Type := {
  run : RunArgs.t Matrix -> Aggregated.t Buffer
}.

(** Calculate density grid from an array of points.  The parameter [fp64]
    defaults to [false] when the caller leaves it out. *)
Definition pointToDensityGridData (data : list Point)
    (getPosition : Point -> number * number) (cellSizeMeters : number)
    (gpuGridAggregator : Aggregator) (gpuAggregation : bool)
    (fp64 : option bool) : DensityGrid.t Buffer :=
  let fp64 := match fp64 with Some b => b | None => false end in
  let gridData := _parseData data getPosition in
  let gridOffset := _getGridOffset gridData cellSizeMeters in
  let opts := _getGPUAggregationParams gridData gridOffset in
  let aggregatedData :=
    run gpuGridAggregator
      (RunArgs.mk (Opts.positions opts) (Opts.positions64xyLow opts)
         (Opts.weights opts) (Opts.cellSize opts) (Opts.width opts)
         (Opts.height opts) (Opts.gridTransformMatrix opts)
         gpuAggregation fp64) in
  let gridSizeX :=
    Math_ceil (div (Opts.width opts) (index (Opts.cellSize opts) 0)) in
  let gridSizeY :=
    Math_ceil (div (Opts.height opts) (index (Opts.cellSize opts) 1)) in
  DensityGrid.mk
    (Aggregated.countsBuffer aggregatedData)
    (Aggregated.maxCountBuffer aggregatedData)
    [gridSizeX; gridSizeY]
    (Opts.gridOrigin opts)
    [GridOffset.xOffset (Opts.gridOffset opts);
     GridOffset.yOffset (Opts.gridOffset opts)].

End Pipeline.

Arguments _parseData_body fp64LowPart {Point} getPosition st point.
Arguments _parseData_loop fp64LowPart {Point} getPosition data st.
Arguments _parseData fp64LowPart {Point} data getPosition.
Arguments _getGPUAggregationParams {Matrix} Matrix4_translate
  gridData gridOffset.
Arguments run {Matrix Buffer}.
Arguments pointToDensityGridData fp64LowPart {Matrix} Matrix4_translate
  {Point Buffer} data getPosition cellSizeMeters gpuGridAggregator
  gpuAggregation fp64.

(** ** Vocabulary of the statements *)

(** The point has a finite latitude and a finite longitude: the test that
    guards the update of the bounds in [_parseData]. *)
Definition fullyFinite {Point : Type} (getPosition : Point -> number * number)
    (point : Point) : bool :=
  Number_isFinite (snd (getPosition point))
  && Number_isFinite (fst (getPosition point)).

(** The bounds before any point is read. *)
Definition sentinels : number * number * number * number :=
  (Infinity, NegInfinity, Infinity, NegInfinity).

(** The flattened [lng, lat] pairs of the points, in input order. *)
Definition flatPositions {Point : Type}
    (getPosition : Point -> number * number) (data : list Point)
  : list number :=
  flat_map (fun p => [fst (getPosition p); snd (getPosition p)]) data.

(** The four bounds are finite, enclose the position of every fully finite
    point of [data], and each of them is the coordinate of such a point. *)
Definition tight_bounds {Point : Type}
    (getPosition : Point -> number * number) (data : list Point)
    (b : number * number * number * number) : Prop :=
  exists latMin latMax lngMin lngMax : R,
    b = (Fin latMin, Fin latMax, Fin lngMin, Fin lngMax) /\
    (forall (p : Point) (lng lat : R),
        In p data -> getPosition p = (Fin lng, Fin lat) ->
        latMin <= lat <= latMax /\ lngMin <= lng <= lngMax) /\
    (exists p lng, In p data /\ getPosition p = (Fin lng, Fin latMin)) /\
    (exists p lng, In p data /\ getPosition p = (Fin lng, Fin latMax)) /\
    (exists p lat, In p data /\ getPosition p = (Fin lngMin, Fin lat)) /\
    (exists p lat, In p data /\ getPosition p = (Fin lngMax, Fin lat)).

(** ** The longitude offset in double arithmetic

    The same two functions over IEEE binary64, as the program runs them,
    with [Math.cos] (whose result the language leaves to the
    implementation) taken as a parameter.  [Math.PI] is the double nearest
    to pi. *)

Module Double.
Import PrimFloat.
Local Open Scope float_scope.

Definition R_EARTH : float := 6378000.

Definition Math_PI : float := 0x1.921fb54442d18p+1.

Definition _calculateLatOffset (dy : float) : float :=
  (dy / R_EARTH) * (180 / Math_PI).

Definition _calculateLonOffset (Math_cos : float -> float)
    (lat dx : float) : float :=
  ((dx / R_EARTH) * (180 / Math_PI)) / Math_cos ((lat * Math_PI) / 180).

End Double.

(** ** Facts about the number operations *)

Lemma Rltb_true (x y : R) : x < y -> Rltb x y = true.
Proof.
  intros H. unfold Rltb.
  destruct (Rlt_dec x y); [reflexivity | contradiction].
Qed.

Lemma Rltb_false (x y : R) : y <= x -> Rltb x y = false.
Proof.
  intros H. unfold Rltb. destruct (Rlt_dec x y); [lra | reflexivity].
Qed.

Lemma lt_Fin_true (x y : R) : x < y -> lt (Fin x) (Fin y) = true.
Proof. apply Rltb_true. Qed.

Lemma lt_Fin_false (x y : R) : y <= x -> lt (Fin x) (Fin y) = false.
Proof. apply Rltb_false. Qed.

Lemma div_Fin (x y : R) : y <> 0 -> div (Fin x) (Fin y) = Fin (x / y).
Proof.
  intros Hy. simpl.
  destruct (Req_dec_T y 0) as [E | _]; [contradiction | reflexivity].
Qed.

(** ** alignToCellBoundary on finite values *)

Section Alignment.

Variables v c : R.
Hypothesis c_pos : 0 < c.

(** On the non-negative side the function floors [v / c]. *)
Lemma alignToCellBoundary_nonneg :
  0 <= v ->
  alignToCellBoundary (Fin v) (Fin c) = Fin (IZR (Zfloor (v / c)) * c * 1).
Proof.
  intros Hv. unfold alignToCellBoundary.
  rewrite (lt_Fin_false v 0) by exact Hv.
  rewrite (lt_Fin_false 1 0) by lra.
  cbn [Math_abs]. rewrite div_Fin by lra.
  rewrite Rabs_pos_eq by exact Hv. reflexivity.
Qed.

(** On the negative side it floors [(|v| + c) / c] and negates. *)
Lemma alignToCellBoundary_neg :
  v < 0 ->
  alignToCellBoundary (Fin v) (Fin c)
  = Fin (IZR (Zfloor ((- v + c) / c)) * c * -1).
Proof.
  intros Hv. unfold alignToCellBoundary.
  rewrite (lt_Fin_true v 0) by exact Hv.
  rewrite (lt_Fin_true (-1) 0) by lra.
  cbn [Math_abs add]. rewrite div_Fin by lra.
  rewrite Rabs_left by exact Hv. reflexivity.
Qed.

(** The bounds of [Zfloor (x / c)], multiplied by the cell size. *)
Lemma floor_cell_bounds (x : R) :
  IZR (Zfloor (x / c)) * c <= x < IZR (Zfloor (x / c)) * c + c.
Proof.
  destruct (Zfloor_bound (x / c)) as [Hlo Hhi].
  assert (E : x = x / c * c) by (field; lra).
  split.
  - rewrite E at 2. apply Rmult_le_compat_r; lra.
  - rewrite E at 1.
    replace (IZR (Zfloor (x / c)) * c + c)
      with ((IZR (Zfloor (x / c)) + 1) * c) by ring.
    apply Rmult_lt_compat_r; lra.
Qed.

(** A non-negative value lies in the cell that starts at its alignment. *)
Lemma alignToCellBoundary_nonneg_cell :
  0 <= v ->
  exists a,
    alignToCellBoundary (Fin v) (Fin c) = Fin a /\ 0 <= a /\ a <= v < a + c.
Proof.
  intros Hv. eexists. split; [apply alignToCellBoundary_nonneg; exact Hv |].
  pose proof (floor_cell_bounds v) as Hb.
  assert (0 <= IZR (Zfloor (v / c))).
  { apply IZR_le, Zfloor_lub. simpl. apply Rmult_le_pos; [lra |].
    apply Rlt_le, Rinv_0_lt_compat, c_pos. }
  split; [| lra].
  rewrite Rmult_1_r. apply Rmult_le_pos; lra.
Qed.

(** A negative value lies in the cell that ends one cell above its
    alignment, the upper end included and the lower end excluded. *)
Lemma alignToCellBoundary_neg_cell :
  v < 0 ->
  exists a, alignToCellBoundary (Fin v) (Fin c) = Fin a /\ a < v <= a + c.
Proof.
  intros Hv. eexists. split; [apply alignToCellBoundary_neg; exact Hv |].
  pose proof (floor_cell_bounds (- v + c)) as Hb. lra.
Qed.

End Alignment.

(** A negative exact multiple of the cell size is moved one whole cell
    down, where a non-negative one is kept. *)
Lemma alignToCellBoundary_neg_multiple (k : Z) (c : R) :
  0 < c -> (0 < k)%Z ->
  alignToCellBoundary (Fin (- IZR k * c)) (Fin c) = Fin (- (IZR k + 1) * c).
Proof.
  intros Hc Hk. apply IZR_lt in Hk.
  rewrite alignToCellBoundary_neg by nra.
  replace ((- (- IZR k * c) + c) / c) with (IZR (k + 1))
    by (rewrite plus_IZR; field; lra).
  rewrite ZfloorZ, plus_IZR. f_equal. ring.
Qed.

Lemma alignToCellBoundary_nonneg_multiple (k : Z) (c : R) :
  0 < c -> (0 <= k)%Z ->
  alignToCellBoundary (Fin (IZR k * c)) (Fin c) = Fin (IZR k * c).
Proof.
  intros Hc Hk. apply IZR_le in Hk.
  rewrite alignToCellBoundary_nonneg by nra.
  replace (IZR k * c / c) with (IZR k) by (field; lra).
  rewrite ZfloorZ. f_equal. ring.
Qed.

(** Hence aligning a negative value a second time moves it one more cell
    down. *)
Lemma alignToCellBoundary_twice_neg (v c : R) :
  0 < c -> v < 0 ->
  exists a : R,
    alignToCellBoundary (Fin v) (Fin c) = Fin a /\
    alignToCellBoundary (Fin a) (Fin c) = Fin (a - c).
Proof.
  intros Hc Hv.
  set (n := Zfloor ((- v + c) / c)).
  assert (Hn : (0 < n)%Z).
  { assert (1 <= n)%Z; [| lia]. apply Zfloor_lub.
    apply Rmult_le_reg_r with c; [exact Hc |].
    replace ((- v + c) / c * c) with (- v + c) by (field; lra). lra. }
  exists (- IZR n * c). split.
  - rewrite alignToCellBoundary_neg by assumption. fold n. f_equal. ring.
  - rewrite alignToCellBoundary_neg_multiple by assumption. f_equal. ring.
Qed.

(** The value computed at the two inputs used below. *)
Lemma alignToCellBoundary_minus_one :
  alignToCellBoundary (Fin (-1)) (Fin 1) = Fin (-2).
Proof.
  rewrite alignToCellBoundary_neg by lra.
  replace ((- -1 + 1) / 1) with (IZR 2) by (simpl; lra).
  rewrite ZfloorZ. f_equal. lra.
Qed.

Lemma alignToCellBoundary_minus_half :
  alignToCellBoundary (Fin (-1 / 2)) (Fin 1) = Fin (-1).
Proof.
  rewrite alignToCellBoundary_neg by lra.
  rewrite (Zfloor_eq 1) by lra. f_equal. lra.
Qed.

(** C1.  The claim asks, for every finite [v] and positive cell size [c],
    that [alignToCellBoundary v c <= v < alignToCellBoundary v c + c].  At
    the negative cell boundary [v = -1] with [c = 1] the function returns
    [-2], one whole cell below the input, so the input is not strictly
    inside the cell that starts at the returned boundary: [-1 < -2 + 1]
    fails. *)
Theorem alignToCellBoundary_negative_boundary_escapes_cell :
  exists a : R,
    alignToCellBoundary (Fin (-1)) (Fin 1) = Fin a /\
    a = -2 /\ a <= -1 /\ ~ (-1 < a + 1).
Proof.
  exists (-2). split; [exact alignToCellBoundary_minus_one |].
  repeat split; lra.
Qed.

(** C2.  The claim asks that aligning an aligned value changes nothing.
    For [v = -1/2] and [c = 1] the first alignment gives [-1] and aligning
    that again gives [-2]: the function is not idempotent on negative
    values. *)
Theorem alignToCellBoundary_twice_differs :
  alignToCellBoundary (Fin (-1 / 2)) (Fin 1) = Fin (-1) /\
  alignToCellBoundary (alignToCellBoundary (Fin (-1 / 2)) (Fin 1)) (Fin 1)
  = Fin (-2) /\
  alignToCellBoundary (alignToCellBoundary (Fin (-1 / 2)) (Fin 1)) (Fin 1)
  <> alignToCellBoundary (Fin (-1 / 2)) (Fin 1).
Proof.
  rewrite alignToCellBoundary_minus_half, alignToCellBoundary_minus_one.
  repeat split. intros E. injection E as E. lra.
Qed.

(** C3.  alignToCellBoundary is monotonic: for a positive cell size [c] and
    finite [v1 <= v2], both alignments are finite and the alignment of [v1]
    is at most the alignment of [v2]. *)
Theorem alignToCellBoundary_monotonic (v1 v2 c : R) :
  0 < c -> v1 <= v2 ->
  exists a1 a2 : R,
    alignToCellBoundary (Fin v1) (Fin c) = Fin a1 /\
    alignToCellBoundary (Fin v2) (Fin c) = Fin a2 /\
    a1 <= a2.
Proof.
  intros Hc Hle.
  assert (Hinv : 0 < / c) by (apply Rinv_0_lt_compat; exact Hc).
  destruct (Rlt_dec v1 0) as [N1 | P1]; destruct (Rlt_dec v2 0) as [N2 | P2].
  - (* both negative: the floors are ordered the other way round *)
    do 2 eexists.
    split; [apply alignToCellBoundary_neg; assumption |].
    split; [apply alignToCellBoundary_neg; assumption |].
    assert (Hz : IZR (Zfloor ((- v2 + c) / c))
                 <= IZR (Zfloor ((- v1 + c) / c))).
    { apply IZR_le, Zfloor_le. unfold Rdiv.
      apply Rmult_le_compat_r; lra. }
    nra.
  - (* v1 negative, v2 non-negative *)
    destruct (alignToCellBoundary_neg_cell v1 c Hc N1) as (a1 & E1 & B1).
    destruct (alignToCellBoundary_nonneg_cell v2 c Hc) as (a2 & E2 & Z2 & B2);
      [lra |].
    exists a1, a2. repeat split; try assumption. lra.
  - lra.
  - (* both non-negative *)
    do 2 eexists.
    split; [apply alignToCellBoundary_nonneg; lra |].
    split; [apply alignToCellBoundary_nonneg; lra |].
    assert (Hz : IZR (Zfloor (v1 / c)) <= IZR (Zfloor (v2 / c))).
    { apply IZR_le, Zfloor_le. unfold Rdiv.
      apply Rmult_le_compat_r; lra. }
    nra.
Qed.

Lemma alignToCellBoundary_monotonic_witness :
  exists a1 a2 : R,
    alignToCellBoundary (Fin (-1)) (Fin 1) = Fin a1 /\
    alignToCellBoundary (Fin (-1 / 2)) (Fin 1) = Fin a2 /\
    a1 <= a2.
Proof.
  apply (alignToCellBoundary_monotonic (-1) (-1 / 2) 1); lra.
Defined.

(** C10.  For every finite [v] and positive cell size [c], the aligned value
    is an exact integer multiple of [c]. *)
Theorem alignToCellBoundary_integer_multiple (v c : R) :
  0 < c ->
  exists k : Z, alignToCellBoundary (Fin v) (Fin c) = Fin (IZR k * c).
Proof.
  intros Hc. destruct (Rlt_dec v 0) as [N | P].
  - exists (- Zfloor ((- v + c) / c))%Z.
    rewrite alignToCellBoundary_neg by assumption.
    f_equal. rewrite opp_IZR. ring.
  - exists (Zfloor (v / c)).
    rewrite alignToCellBoundary_nonneg by lra.
    f_equal. ring.
Qed.

Lemma alignToCellBoundary_integer_multiple_witness :
  exists k : Z, alignToCellBoundary (Fin (-1 / 2)) (Fin 1) = Fin (IZR k * 1).
Proof.
  apply (alignToCellBoundary_integer_multiple (-1 / 2) 1). lra.
Defined.

(** ** The point scanner *)

Section Scanner.

Variable fp64LowPart : number -> number.
Variable Point : Type.
Variable getPosition : Point -> number * number.

(** What the loop appends to the three buffers of the state it starts in. *)
Lemma _parseData_loop_buffers (data : list Point) (st : GridData.t) :
  GridData.positions (_parseData_loop fp64LowPart getPosition data st)
  = GridData.positions st ++ flatPositions getPosition data /\
  GridData.positions64xyLow (_parseData_loop fp64LowPart getPosition data st)
  = GridData.positions64xyLow st
    ++ map fp64LowPart (flatPositions getPosition data) /\
  GridData.weights (_parseData_loop fp64LowPart getPosition data st)
  = GridData.weights st ++ repeat (Fin 1) (length data).
Proof.
  revert st. induction data as [| p rest IH]; intros st; simpl.
  - rewrite !app_nil_r. auto.
  - destruct (IH (_parseData_body fp64LowPart getPosition st p))
      as (Hp & Hl & Hw).
    rewrite Hp, Hl, Hw. clear IH Hp Hl Hw.
    unfold _parseData_body.
    destruct (Number_isFinite (snd (getPosition p))
              && Number_isFinite (fst (getPosition p)));
      cbn [GridData.positions GridData.positions64xyLow GridData.weights];
      rewrite <- !app_assoc; auto.
Qed.

(** A point that is not fully finite leaves the four bounds as they were. *)
Lemma _parseData_body_skips (st : GridData.t) (p : Point) :
  fullyFinite getPosition p = false ->
  GridData.bounds (_parseData_body fp64LowPart getPosition st p)
  = GridData.bounds st.
Proof.
  unfold fullyFinite, _parseData_body. intros ->. reflexivity.
Qed.

(** The bounds after an iteration depend on the bounds before it only. *)
Lemma _parseData_body_bounds_ext (st st' : GridData.t) (p : Point) :
  GridData.bounds st = GridData.bounds st' ->
  GridData.bounds (_parseData_body fp64LowPart getPosition st p)
  = GridData.bounds (_parseData_body fp64LowPart getPosition st' p).
Proof.
  unfold GridData.bounds. intros E. injection E as E1 E2 E3 E4.
  unfold _parseData_body.
  destruct (Number_isFinite (snd (getPosition p))
            && Number_isFinite (fst (getPosition p)));
    cbn [GridData.latMin GridData.latMax GridData.lngMin GridData.lngMax];
    rewrite E1, E2, E3, E4; reflexivity.
Qed.

Lemma _parseData_loop_bounds_ext (data : list Point) (st st' : GridData.t) :
  GridData.bounds st = GridData.bounds st' ->
  GridData.bounds (_parseData_loop fp64LowPart getPosition data st)
  = GridData.bounds (_parseData_loop fp64LowPart getPosition data st').
Proof.
  revert st st'. induction data as [| p rest IH]; intros st st' E; simpl.
  - exact E.
  - apply IH, _parseData_body_bounds_ext, E.
Qed.

(** Dropping the points that are not fully finite keeps the bounds. *)
Lemma _parseData_loop_filter (data : list Point) (st : GridData.t) :
  GridData.bounds (_parseData_loop fp64LowPart getPosition data st)
  = GridData.bounds
      (_parseData_loop fp64LowPart getPosition
         (filter (fullyFinite getPosition) data) st).
Proof.
  revert st. induction data as [| p rest IH]; intros st; simpl.
  - reflexivity.
  - destruct (fullyFinite getPosition p) eqn:F; simpl.
    + apply IH.
    + rewrite <- IH. apply _parseData_loop_bounds_ext.
      apply _parseData_body_skips, F.
Qed.

End Scanner.

(** C8.  For every collection of N points and every accessor the scanner
    appends, for each point in order, its longitude and latitude, their
    low-precision parts and the weight 1.0, whatever the coordinates are:
    the positions buffer and the low-part buffer have 2 * N entries, the
    weights buffer has N, and every weight is 1.0. *)
Theorem _parseData_buffers (fp64LowPart : number -> number) (Point : Type)
    (data : list Point) (getPosition : Point -> number * number) :
  let gridData := _parseData fp64LowPart data getPosition in
  GridData.positions gridData = flatPositions getPosition data /\
  GridData.positions64xyLow gridData
  = map fp64LowPart (flatPositions getPosition data) /\
  GridData.weights gridData = repeat (Fin 1) (length data) /\
  length (GridData.positions gridData) = (2 * length data)%nat /\
  length (GridData.positions64xyLow gridData) = (2 * length data)%nat /\
  length (GridData.weights gridData) = length data /\
  Forall (fun w => w = Fin 1) (GridData.weights gridData).
Proof.
  intros gridData.
  destruct (_parseData_loop_buffers fp64LowPart Point getPosition data
              _parseData_init) as (Hp & Hl & Hw).
  simpl in Hp, Hl, Hw. unfold gridData, _parseData.
  assert (Hlen : length (flatPositions getPosition data)
                 = (2 * length data)%nat).
  { unfold flatPositions. clear.
    induction data as [| p rest IH]; simpl; [reflexivity | lia]. }
  rewrite Hp, Hl, Hw, length_map, Hlen, repeat_length.
  repeat split.
  apply Forall_forall. intros w Hin. apply repeat_spec in Hin. exact Hin.
Qed.

(** C9.  The bounds are those of the fully finite points alone; a point
    with a non-finite component leaves them unchanged; and when no point is
    fully finite (in particular on empty input) the scanner returns the
    sentinels: latMin = lngMin = +Infinity and latMax = lngMax = -Infinity. *)
Theorem _parseData_bounds_finite_only (fp64LowPart : number -> number)
    (Point : Type) (data : list Point)
    (getPosition : Point -> number * number) :
  GridData.bounds (_parseData fp64LowPart data getPosition)
  = GridData.bounds
      (_parseData fp64LowPart (filter (fullyFinite getPosition) data)
         getPosition) /\
  (forall (st : GridData.t) (p : Point),
      fullyFinite getPosition p = false ->
      GridData.bounds (_parseData_body fp64LowPart getPosition st p)
      = GridData.bounds st) /\
  GridData.bounds (_parseData fp64LowPart [] getPosition) = sentinels /\
  ((forall p, In p data -> fullyFinite getPosition p = false) ->
   GridData.bounds (_parseData fp64LowPart data getPosition) = sentinels).
Proof.
  split; [apply _parseData_loop_filter |].
  split; [apply _parseData_body_skips |].
  split; [reflexivity |].
  intros Hnone. unfold _parseData.
  rewrite _parseData_loop_filter.
  replace (filter (fullyFinite getPosition) data) with (@nil Point);
    [reflexivity |].
  symmetry. clear - Hnone.
  induction data as [| p rest IH]; simpl; [reflexivity |].
  rewrite (Hnone p) by (left; reflexivity).
  apply IH. intros q Hq. apply Hnone. right. exact Hq.
Qed.

Lemma _parseData_bounds_finite_only_witness :
  GridData.bounds
    (_parseData (fun x => x) [(NaN, Fin 1); (Fin 2, Infinity)] (fun p => p))
  = sentinels.
Proof.
  apply (_parseData_bounds_finite_only (fun x => x) (number * number)
           [(NaN, Fin 1); (Fin 2, Infinity)] (fun p => p)).
  intros p [<- | [<- | []]]; reflexivity.
Defined.

(** ** The cell size in degrees *)

Lemma R_EARTH_neq_0 : 6378000 <> 0.
Proof. lra. Qed.

(** The factor [180 / Math.PI] is finite. *)
Lemma degrees_per_radian : div (Fin 180) Math_PI = Fin (180 / PI).
Proof. unfold Math_PI. apply div_Fin, PI_neq0. Qed.

(** A latitude in degrees converted to radians. *)
Lemma radians_Fin (lat : R) :
  div (mul (Fin lat) Math_PI) (Fin 180) = Fin (lat * PI / 180).
Proof. unfold Math_PI. cbn [mul]. apply div_Fin. lra. Qed.

Lemma _calculateLatOffset_Fin (dy : R) :
  _calculateLatOffset (Fin dy) = Fin (dy / 6378000 * (180 / PI)).
Proof.
  unfold _calculateLatOffset, R_EARTH.
  rewrite degrees_per_radian, div_Fin by exact R_EARTH_neq_0. reflexivity.
Qed.

Lemma _calculateLonOffset_Fin (lat dx : R) :
  cos (lat * PI / 180) <> 0 ->
  _calculateLonOffset (Fin lat) (Fin dx)
  = Fin (dx / 6378000 * (180 / PI) / cos (lat * PI / 180)).
Proof.
  intros Hcos. unfold _calculateLonOffset, R_EARTH.
  rewrite degrees_per_radian, radians_Fin, div_Fin by exact R_EARTH_neq_0.
  cbn [mul Math_cos]. apply div_Fin, Hcos.
Qed.

(** The latitude offset of a positive cell size is positive. *)
Lemma latOffset_pos (dx : R) : 0 < dx -> 0 < dx / 6378000 * (180 / PI).
Proof.
  intros Hdx. pose proof PI_RGT_0 as Hpi.
  apply Rmult_lt_0_compat.
  - apply Rdiv_lt_0_compat; lra.
  - apply Rdiv_lt_0_compat; lra.
Qed.




(** C6.  The latitude offset is [(cellSizeMeters / R_EARTH) * (180 / pi)]
    whatever the bounds are, and the longitude offset is the latitude offset
    divided by the cosine of the mean latitude [(latMin + latMax) / 2] in
    radians.  On finite inputs both are the real numbers these formulas
    denote. *)
Theorem _getGridOffset_formula (gridData : GridData.t)
    (cellSizeMeters : number) :
  let gridOffset := _getGridOffset gridData cellSizeMeters in
  let latitude :=
    div (add (GridData.latMin gridData) (GridData.latMax gridData)) (Fin 2) in
  GridOffset.yOffset gridOffset
  = mul (div cellSizeMeters R_EARTH) (div (Fin 180) Math_PI) /\
  GridOffset.xOffset gridOffset
  = div (GridOffset.yOffset gridOffset)
        (Math_cos (div (mul latitude Math_PI) (Fin 180))) /\
  (forall otherData : GridData.t,
      GridOffset.yOffset (_getGridOffset otherData cellSizeMeters)
      = GridOffset.yOffset gridOffset) /\
  (forall c latMin latMax : R,
      cellSizeMeters = Fin c ->
      GridData.latMin gridData = Fin latMin ->
      GridData.latMax gridData = Fin latMax ->
      cos ((latMin + latMax) / 2 * PI / 180) <> 0 ->
      GridOffset.yOffset gridOffset = Fin (c / 6378000 * (180 / PI)) /\
      GridOffset.xOffset gridOffset
      = Fin (c / 6378000 * (180 / PI)
             / cos ((latMin + latMax) / 2 * PI / 180))).
Proof.
  intros gridOffset latitude.
  split; [reflexivity |]. split; [reflexivity |]. split; [reflexivity |].
  intros c latMin latMax -> Emin Emax Hcos.
  unfold gridOffset, _getGridOffset, _calculateGridLatLonOffset.
  cbn [GridOffset.yOffset GridOffset.xOffset].
  rewrite Emin, Emax. cbn [add]. rewrite (div_Fin (latMin + latMax) 2) by lra.
  rewrite _calculateLatOffset_Fin, _calculateLonOffset_Fin by exact Hcos.
  split; reflexivity.
Qed.

Lemma cos_equator : cos ((0 + 0) / 2 * PI / 180) = 1.
Proof.
  replace ((0 + 0) / 2 * PI / 180) with 0 by lra. exact cos_0.
Qed.

Lemma _getGridOffset_formula_witness :
  let gridOffset :=
    _getGridOffset
      (GridData.mk [] [] [] (Fin 0) (Fin 0) (Fin 0) (Fin 0)) (Fin 1000) in
  GridOffset.yOffset gridOffset = Fin (1000 / 6378000 * (180 / PI)) /\
  GridOffset.xOffset gridOffset
  = Fin (1000 / 6378000 * (180 / PI) / cos ((0 + 0) / 2 * PI / 180)).
Proof.
  apply (_getGridOffset_formula
           (GridData.mk [] [] [] (Fin 0) (Fin 0) (Fin 0) (Fin 0)) (Fin 1000));
    try reflexivity.
  rewrite cos_equator. lra.
Defined.



(** *** In double arithmetic *)

Module DoubleFacts.
Import PrimFloat.
Local Open Scope float_scope.


(** The latitudes 0 and 5e-324 (the least positive double) have the same
    value in radians, [(lat * Math.PI) / 180 = 0]. *)
Lemma radians_of_least_latitude :
  (0x1p-1074 * Double.Math_PI) / 180 = (0 * Double.Math_PI) / 180.
Proof. reflexivity. Qed.


End DoubleFacts.

(** ** The grid placement *)

(** C4.  The grid origin is the pair of the minimum bounds, each shifted
    into positive space (longitude by 180, latitude by 90), aligned to the
    cell size and shifted back; the transform translates by its opposite;
    and this is the origin that [pointToDensityGridData] returns for the
    scanned bounds and the computed cell size. *)
Theorem gridOrigin_shift_align_shift_back (Matrix : Type)
    (Matrix4_translate : list number -> Matrix) :
  (forall (gridData : GridData.t) (gridOffset : GridOffset.t),
      let opts :=
        _getGPUAggregationParams Matrix4_translate gridData gridOffset in
      let originY :=
        sub (alignToCellBoundary (add (GridData.latMin gridData) (Fin 90))
               (GridOffset.yOffset gridOffset)) (Fin 90) in
      let originX :=
        sub (alignToCellBoundary (add (GridData.lngMin gridData) (Fin 180))
               (GridOffset.xOffset gridOffset)) (Fin 180) in
      Opts.gridOrigin opts = [originX; originY] /\
      Opts.gridTransformMatrix opts
      = Matrix4_translate
          [mul (Fin (-1)) originX; mul (Fin (-1)) originY; Fin 0]) /\
  (forall (fp64LowPart : number -> number) (Point Buffer : Type)
          (data : list Point) (getPosition : Point -> number * number)
          (cellSizeMeters : number)
          (gpuGridAggregator : Aggregator Matrix Buffer)
          (gpuAggregation : bool) (fp64 : option bool),
      let gridData := _parseData fp64LowPart data getPosition in
      let gridOffset := _getGridOffset gridData cellSizeMeters in
      DensityGrid.gridOrigin
        (pointToDensityGridData fp64LowPart Matrix4_translate data getPosition
           cellSizeMeters gpuGridAggregator gpuAggregation fp64)
      = [sub (alignToCellBoundary (add (GridData.lngMin gridData) (Fin 180))
                (GridOffset.xOffset gridOffset)) (Fin 180);
         sub (alignToCellBoundary (add (GridData.latMin gridData) (Fin 90))
                (GridOffset.yOffset gridOffset)) (Fin 90)]).
Proof.
  split.
  - intros gridData gridOffset opts originY originX. split; reflexivity.
  - intros. reflexivity.
Qed.




(** ** Further properties of the alignment *)

(** Infinite operands against a positive finite one. *)
Lemma signed_inf_pos (x : R) : 0 < x -> signed_inf x = Infinity.
Proof.
  intros Hx. unfold signed_inf.
  destruct (Rlt_dec 0 x); [reflexivity | contradiction].
Qed.

Lemma signed_inf_neg (x : R) : x < 0 -> signed_inf x = NegInfinity.
Proof.
  intros Hx. unfold signed_inf.
  destruct (Rlt_dec 0 x); [lra |].
  destruct (Rlt_dec x 0); [reflexivity | contradiction].
Qed.

Lemma signed_inf_zero : signed_inf 0 = NaN.
Proof.
  unfold signed_inf.
  destruct (Rlt_dec 0 0); [lra | reflexivity].
Qed.

Lemma div_Infinity_pos (x : R) :
  0 < x ->
  div Infinity (Fin x) = Infinity /\ div NegInfinity (Fin x) = NegInfinity.
Proof.
  intros Hx. cbn [div]. destruct (Rlt_dec x 0); [lra |]. split; reflexivity.
Qed.

Lemma mul_Infinity_pos (x : R) :
  0 < x ->
  mul Infinity (Fin x) = Infinity /\ mul NegInfinity (Fin x) = NegInfinity.
Proof.
  intros Hx. cbn [mul].
  rewrite (signed_inf_pos x), (signed_inf_neg (- x)) by lra.
  split; reflexivity.
Qed.

Lemma mul_Infinity_neg (x : R) :
  x < 0 ->
  mul Infinity (Fin x) = NegInfinity /\ mul NegInfinity (Fin x) = Infinity.
Proof.
  intros Hx. cbn [mul].
  rewrite (signed_inf_pos (- x)), (signed_inf_neg x) by lra.
  split; reflexivity.
Qed.

(** X4.  Non-finite inputs pass through: [NaN] aligns to [NaN] for every
    cell size, and for a positive finite cell size [Infinity] aligns to
    [Infinity] and [-Infinity] to [-Infinity]. *)
Theorem alignToCellBoundary_non_finite :
  (forall cellSize : number, alignToCellBoundary NaN cellSize = NaN) /\
  (forall c : R,
      0 < c ->
      alignToCellBoundary Infinity (Fin c) = Infinity /\
      alignToCellBoundary NegInfinity (Fin c) = NegInfinity).
Proof.
  split.
  - intros cellSize. unfold alignToCellBoundary. cbn [lt].
    rewrite (Rltb_false 1 0) by lra.
    destruct cellSize; reflexivity.
  - intros c Hc. unfold alignToCellBoundary. cbn [lt].
    rewrite (Rltb_false 1 0) by lra.
    rewrite (Rltb_true (-1) 0) by lra.
    cbn [Math_abs add].
    destruct (div_Infinity_pos c Hc) as [-> _].
    cbn [Math_floor].
    destruct (mul_Infinity_pos c Hc) as [-> _].
    split.
    + apply (mul_Infinity_pos 1). lra.
    + apply (mul_Infinity_neg (-1)). lra.
Qed.

Lemma alignToCellBoundary_non_finite_witness :
  alignToCellBoundary Infinity (Fin 2) = Infinity /\
  alignToCellBoundary NegInfinity (Fin 2) = NegInfinity.
Proof.
  apply (proj2 alignToCellBoundary_non_finite 2). lra.
Defined.

(** X5.  The cell size is not guarded: a cell size of zero, or [NaN],
    aligns every finite value to [NaN]. *)
Theorem alignToCellBoundary_degenerate_cellSize (v : R) :
  alignToCellBoundary (Fin v) (Fin 0) = NaN /\
  alignToCellBoundary (Fin v) NaN = NaN.
Proof.
  assert (Hmul : forall a : number,
             a = Infinity \/ a = NaN -> mul (mul a (Fin 0)) = mul NaN).
  { intros a [-> | ->]; [| reflexivity]. cbn [mul]. unfold signed_inf.
    destruct (Rlt_dec 0 0) as [F | _]; [lra |]. reflexivity. }
  split.
  - unfold alignToCellBoundary.
    destruct (lt (Fin v) (Fin 0)) eqn:S.
    + rewrite (lt_Fin_true (-1) 0) by lra. cbn [Math_abs add div].
      destruct (Req_dec_T 0 0) as [_ | F]; [| contradiction].
      unfold signed_inf.
      destruct (Rlt_dec 0 (Rabs v + 0)) as [_ | _];
        [| destruct (Rlt_dec (Rabs v + 0) 0) as [F | _];
           [pose proof (Rabs_pos v); lra |]];
        cbn [Math_floor]; rewrite Hmul by auto; reflexivity.
    + rewrite (lt_Fin_false 1 0) by lra. cbn [Math_abs div].
      destruct (Req_dec_T 0 0) as [_ | F]; [| contradiction].
      unfold signed_inf.
      destruct (Rlt_dec 0 (Rabs v)) as [_ | _];
        [| destruct (Rlt_dec (Rabs v) 0) as [F | _];
           [pose proof (Rabs_pos v); lra |]];
        cbn [Math_floor]; rewrite Hmul by auto; reflexivity.
  - unfold alignToCellBoundary.
    destruct (lt (Fin v) (Fin 0)).
    + rewrite (lt_Fin_true (-1) 0) by lra. reflexivity.
    + rewrite (lt_Fin_false 1 0) by lra. reflexivity.
Qed.

(** X19.  For a positive cell size the alignment never crosses zero: a
    negative input gives a negative result, at least one whole cell below
    zero; a non-negative input gives a non-negative result; and zero stays
    zero. *)
Theorem alignToCellBoundary_keeps_side (v c : R) :
  0 < c ->
  (v < 0 ->
   lt (alignToCellBoundary (Fin v) (Fin c)) (Fin 0) = true /\
   lt (Fin (- c)) (alignToCellBoundary (Fin v) (Fin c)) = false) /\
  (0 <= v ->
   lt (alignToCellBoundary (Fin v) (Fin c)) (Fin 0) = false /\
   alignToCellBoundary (Fin v) (Fin c) <> NaN) /\
  alignToCellBoundary (Fin 0) (Fin c) = Fin 0.
Proof.
  intros Hc. split; [| split].
  - intros Hv. rewrite (alignToCellBoundary_neg v c Hc Hv).
    assert (Hn : 1 <= IZR (Zfloor ((- v + c) / c))).
    { apply IZR_le, Zfloor_lub.
      apply Rmult_le_reg_r with c; [exact Hc |].
      replace ((- v + c) / c * c) with (- v + c) by (field; lra). lra. }
    split; [apply lt_Fin_true | apply lt_Fin_false]; nra.
  - intros Hv. rewrite (alignToCellBoundary_nonneg v c Hc Hv).
    assert (Hn : 0 <= IZR (Zfloor (v / c))).
    { apply IZR_le, Zfloor_lub. simpl. apply Rmult_le_pos; [exact Hv |].
      apply Rlt_le, Rinv_0_lt_compat, Hc. }
    split; [apply lt_Fin_false; nra | discriminate].
  - rewrite alignToCellBoundary_nonneg by lra.
    replace (0 / c) with (IZR 0) by (simpl; field; lra).
    rewrite ZfloorZ. f_equal. simpl. ring.
Qed.

Lemma alignToCellBoundary_keeps_side_witness :
  lt (alignToCellBoundary (Fin (-5 / 2)) (Fin 2)) (Fin 0) = true /\
  lt (Fin (- 2)) (alignToCellBoundary (Fin (-5 / 2)) (Fin 2)) = false.
Proof.
  assert (Hc : 0 < 2) by lra.
  apply (proj1 (alignToCellBoundary_keeps_side (-5 / 2) 2 Hc)). lra.
Defined.

(** ** Further properties of the point scanner *)

Lemma fullyFinite_true {Point : Type}
    (getPosition : Point -> number * number) (p : Point) :
  fullyFinite getPosition p = true <->
  exists lng lat : R, getPosition p = (Fin lng, Fin lat).
Proof.
  unfold fullyFinite. destruct (getPosition p) as [lng lat]. simpl. split.
  - destruct lat, lng; simpl; try discriminate. intros _. eauto.
  - intros (x & y & E). injection E as -> ->. reflexivity.
Qed.

(** One step of a running minimum and of a running maximum. *)
Lemma running_min (x m : R) :
  exists m' : R,
    (if lt (Fin x) (Fin m) then Fin x else Fin m) = Fin m' /\
    m' <= x /\ m' <= m /\ (m' = x \/ m' = m).
Proof.
  cbn [lt]. unfold Rltb. destruct (Rlt_dec x m).
  - exists x. repeat split; lra.
  - exists m. repeat split; lra.
Qed.

Lemma running_max (x m : R) :
  exists m' : R,
    (if gt (Fin x) (Fin m) then Fin x else Fin m) = Fin m' /\
    x <= m' /\ m <= m' /\ (m' = x \/ m' = m).
Proof.
  unfold gt. cbn [lt]. unfold Rltb. destruct (Rlt_dec m x).
  - exists x. repeat split; lra.
  - exists m. repeat split; lra.
Qed.

Section ScannerBounds.

Variable fp64LowPart : number -> number.
Variable Point : Type.
Variable getPosition : Point -> number * number.

Lemma _parseData_loop_app (d1 d2 : list Point) (st : GridData.t) :
  _parseData_loop fp64LowPart getPosition (d1 ++ d2) st
  = _parseData_loop fp64LowPart getPosition d2
      (_parseData_loop fp64LowPart getPosition d1 st).
Proof.
  revert st. induction d1 as [| p rest IH]; intros st; simpl.
  - reflexivity.
  - apply IH.
Qed.

(** The bounds after reading a fully finite point. *)
Lemma _parseData_body_reads (st : GridData.t) (p : Point) (lng lat : R) :
  getPosition p = (Fin lng, Fin lat) ->
  GridData.bounds (_parseData_body fp64LowPart getPosition st p)
  = (if lt (Fin lat) (GridData.latMin st)
     then Fin lat else GridData.latMin st,
     if gt (Fin lat) (GridData.latMax st)
     then Fin lat else GridData.latMax st,
     if lt (Fin lng) (GridData.lngMin st)
     then Fin lng else GridData.lngMin st,
     if gt (Fin lng) (GridData.lngMax st)
     then Fin lng else GridData.lngMax st).
Proof.
  intros E. unfold _parseData_body. rewrite E. reflexivity.
Qed.

(** Either no point read so far is fully finite and the bounds are the
    sentinels, or the bounds are tight around the fully finite points. *)
Lemma _parseData_bounds_cases (data : list Point) :
  let b := GridData.bounds (_parseData fp64LowPart data getPosition) in
  ((forall p, In p data -> fullyFinite getPosition p = false) /\
   b = sentinels)
  \/ tight_bounds getPosition data b.
Proof.
  induction data as [| p data IH] using rev_ind; intros b.
  - left. split; [intros p [] | reflexivity].
  - unfold b, _parseData. rewrite _parseData_loop_app. simpl.
    fold (_parseData fp64LowPart data getPosition).
    set (st := _parseData fp64LowPart data getPosition) in *.
    simpl in IH.
    destruct (fullyFinite getPosition p) eqn:F.
    + (* the new point is read *)
      right. apply fullyFinite_true in F. destruct F as (lng & lat & E).
      rewrite (_parseData_body_reads st p lng lat E).
      destruct IH as [[Hnone Hs]
                     | (a & b' & c & d & Hb & Henc & A1 & A2 & A3 & A4)].
      * unfold GridData.bounds, sentinels in Hs.
        injection Hs as -> -> -> ->.
        exists lat, lat, lng, lng. split; [reflexivity |].
        split.
        { intros q qlng qlat Hq Eq. apply in_app_or in Hq.
          destruct Hq as [Hq | [<- | []]].
          - assert (Hf : fullyFinite getPosition q = true)
              by (apply fullyFinite_true; eauto).
            rewrite (Hnone q Hq) in Hf. discriminate.
          - rewrite E in Eq. injection Eq as <- <-. lra. }
        repeat split; exists p; eexists;
          (split; [apply in_or_app; right; left; reflexivity | exact E]).
      * unfold GridData.bounds in Hb. injection Hb as -> -> -> ->.
        destruct (running_min lat a) as (a' & -> & La1 & La2 & Sa).
        destruct (running_max lat b') as (b'' & -> & Lb1 & Lb2 & Sb).
        destruct (running_min lng c) as (c' & -> & Lc1 & Lc2 & Sc).
        destruct (running_max lng d) as (d' & -> & Ld1 & Ld2 & Sd).
        exists a', b'', c', d'. split; [reflexivity |].
        split.
        { intros q qlng qlat Hq Eq. apply in_app_or in Hq.
          destruct Hq as [Hq | [<- | []]].
          - destruct (Henc q qlng qlat Hq Eq). lra.
          - rewrite E in Eq. injection Eq as <- <-. lra. }
        assert (Hin : forall q, In q data -> In q (data ++ [p]))
          by (intros q Hq; apply in_or_app; left; exact Hq).
        assert (Hp : In p (data ++ [p]))
          by (apply in_or_app; right; left; reflexivity).
        repeat split.
        { destruct Sa as [-> | ->];
            [exists p, lng; auto | destruct A1 as (q & x & Hq & Eq); eauto]. }
        { destruct Sb as [-> | ->];
            [exists p, lng; auto | destruct A2 as (q & x & Hq & Eq); eauto]. }
        { destruct Sc as [-> | ->];
            [exists p, lat; auto | destruct A3 as (q & x & Hq & Eq); eauto]. }
        { destruct Sd as [-> | ->];
            [exists p, lat; auto | destruct A4 as (q & x & Hq & Eq); eauto]. }
    + (* the new point is skipped *)
      rewrite (_parseData_body_skips fp64LowPart Point getPosition st p F).
      destruct IH as [[Hnone Hs]
                     | (a & b' & c & d & Hb & Henc & A1 & A2 & A3 & A4)].
      * left. split; [| exact Hs].
        intros q Hq. apply in_app_or in Hq.
        destruct Hq as [Hq | [<- | []]]; [apply Hnone, Hq | exact F].
      * right. exists a, b', c, d. split; [exact Hb |].
        assert (Hin : forall q, In q data -> In q (data ++ [p]))
          by (intros q Hq; apply in_or_app; left; exact Hq).
        split.
        { intros q qlng qlat Hq Eq. apply in_app_or in Hq.
          destruct Hq as [Hq | [<- | []]]; [exact (Henc q qlng qlat Hq Eq) |].
          assert (Hf : fullyFinite getPosition p = true)
            by (apply fullyFinite_true; eauto).
          rewrite F in Hf. discriminate. }
        repeat split.
        { destruct A1 as (q & x & Hq & Eq); eauto. }
        { destruct A2 as (q & x & Hq & Eq); eauto. }
        { destruct A3 as (q & x & Hq & Eq); eauto. }
        { destruct A4 as (q & x & Hq & Eq); eauto. }
Qed.

End ScannerBounds.

(** X6.  As soon as one point is fully finite, the four bounds are finite,
    they enclose the position of every fully finite point, and each bound
    is attained by such a point. *)
Theorem _parseData_bounding_box (fp64LowPart : number -> number)
    (Point : Type) (data : list Point)
    (getPosition : Point -> number * number) :
  (exists p, In p data /\ fullyFinite getPosition p = true) ->
  tight_bounds getPosition data
    (GridData.bounds (_parseData fp64LowPart data getPosition)).
Proof.
  intros (p & Hp & F).
  destruct (_parseData_bounds_cases fp64LowPart Point getPosition data)
    as [[Hnone _] | Ht]; [| exact Ht].
  rewrite (Hnone p Hp) in F. discriminate.
Qed.

Lemma _parseData_bounding_box_witness :
  tight_bounds (fun p : number * number => p)
    [(Fin 1, Fin 2); (NaN, Fin 5); (Fin (-3), Fin 4)]
    (GridData.bounds
       (_parseData (fun x => x)
          [(Fin 1, Fin 2); (NaN, Fin 5); (Fin (-3), Fin 4)] (fun p => p))).
Proof.
  apply (_parseData_bounding_box (fun x => x) (number * number)).
  exists (Fin 1, Fin 2). split; [left; reflexivity | reflexivity].
Defined.

(** X7.  The bounds depend on which points are present only, not on their
    order or multiplicity: two collections with the same members have the
    same bounds. *)
Theorem _parseData_bounds_same_members (fp64LowPart : number -> number)
    (Point : Type) (data data' : list Point)
    (getPosition : Point -> number * number) :
  (forall p, In p data <-> In p data') ->
  GridData.bounds (_parseData fp64LowPart data getPosition)
  = GridData.bounds (_parseData fp64LowPart data' getPosition).
Proof.
  intros Hsame.
  assert (Hfin : forall (l : list Point) q x y,
             (forall p, In p l -> fullyFinite getPosition p = false) ->
             In q l -> getPosition q = (Fin x, Fin y) -> False).
  { intros l q x y Hnone Hq Eq.
    assert (F : fullyFinite getPosition q = true)
      by (apply fullyFinite_true; eauto).
    rewrite (Hnone q Hq) in F. discriminate. }
  destruct (_parseData_bounds_cases fp64LowPart Point getPosition data)
    as [[Hnone Hs] | (a & b & c & d & Hb & Henc & A1 & A2 & A3 & A4)];
  destruct (_parseData_bounds_cases fp64LowPart Point getPosition data')
    as [[Hnone' Hs'] | (a' & b' & c' & d' & Hb' & Henc' & B1 & B2 & B3 & B4)].
  - rewrite Hs, Hs'. reflexivity.
  - destruct B1 as (q & x & Hq & Eq). exfalso.
    apply (Hfin data q x a' Hnone); [apply Hsame, Hq | exact Eq].
  - destruct A1 as (q & x & Hq & Eq). exfalso.
    apply (Hfin data' q x a Hnone'); [apply Hsame, Hq | exact Eq].
  - rewrite Hb, Hb'.
    destruct A1 as (p1 & x1 & P1 & E1). destruct A2 as (p2 & x2 & P2 & E2).
    destruct A3 as (p3 & x3 & P3 & E3). destruct A4 as (p4 & x4 & P4 & E4).
    destruct B1 as (q1 & y1 & Q1 & F1). destruct B2 as (q2 & y2 & Q2 & F2).
    destruct B3 as (q3 & y3 & Q3 & F3). destruct B4 as (q4 & y4 & Q4 & F4).
    apply Hsame in P1, P2, P3, P4. apply Hsame in Q1, Q2, Q3, Q4.
    pose proof (Henc' _ _ _ P1 E1). pose proof (Henc' _ _ _ P2 E2).
    pose proof (Henc' _ _ _ P3 E3). pose proof (Henc' _ _ _ P4 E4).
    pose proof (Henc _ _ _ Q1 F1). pose proof (Henc _ _ _ Q2 F2).
    pose proof (Henc _ _ _ Q3 F3). pose proof (Henc _ _ _ Q4 F4).
    assert (a = a') by lra. assert (b = b') by lra.
    assert (c = c') by lra. assert (d = d') by lra.
    subst. reflexivity.
Qed.

Lemma _parseData_bounds_same_members_witness :
  GridData.bounds
    (_parseData (fun x => x) [(Fin 1, Fin 2); (Fin (-3), Fin 4)]
       (fun p : number * number => p))
  = GridData.bounds
      (_parseData (fun x => x)
         [(Fin (-3), Fin 4); (Fin 1, Fin 2); (Fin (-3), Fin 4)]
         (fun p : number * number => p)).
Proof.
  apply (_parseData_bounds_same_members (fun x => x) (number * number)).
  intros p. simpl. tauto.
Defined.

(** The two entries that a point contributes to the flattened positions. *)
Lemma flatPositions_nth_error {Point : Type}
    (getPosition : Point -> number * number) (data : list Point)
    (i : nat) (p : Point) :
  nth_error data i = Some p ->
  nth_error (flatPositions getPosition data) (2 * i)
  = Some (fst (getPosition p)) /\
  nth_error (flatPositions getPosition data) (2 * i + 1)
  = Some (snd (getPosition p)).
Proof.
  revert i. induction data as [| q rest IH]; intros i H.
  - destruct i; discriminate.
  - destruct i as [| i].
    + injection H as ->. split; reflexivity.
    + replace (2 * S i)%nat with (S (S (2 * i))) by lia.
      apply (IH i H).
Qed.

(** X8.  The buffers keep the index of the input: the point at index [i]
    has its longitude at index [2 i] and its latitude at index [2 i + 1] of
    the positions buffer, their low parts at the same indices of the
    low-part buffer, and its weight at index [i]. *)
Theorem _parseData_index_alignment (fp64LowPart : number -> number)
    (Point : Type) (data : list Point)
    (getPosition : Point -> number * number) (i : nat) (p : Point) :
  nth_error data i = Some p ->
  let gridData := _parseData fp64LowPart data getPosition in
  nth_error (GridData.positions gridData) (2 * i)
  = Some (fst (getPosition p)) /\
  nth_error (GridData.positions gridData) (2 * i + 1)
  = Some (snd (getPosition p)) /\
  nth_error (GridData.positions64xyLow gridData) (2 * i)
  = Some (fp64LowPart (fst (getPosition p))) /\
  nth_error (GridData.positions64xyLow gridData) (2 * i + 1)
  = Some (fp64LowPart (snd (getPosition p))) /\
  nth_error (GridData.weights gridData) i = Some (Fin 1).
Proof.
  intros H gridData.
  destruct (_parseData_loop_buffers fp64LowPart Point getPosition data
              _parseData_init) as (Hp & Hl & Hw).
  simpl in Hp, Hl, Hw. unfold gridData, _parseData.
  rewrite Hp, Hl, Hw.
  destruct (flatPositions_nth_error getPosition data i p H) as [H0 H1].
  repeat split; try assumption.
  - apply map_nth_error, H0.
  - apply map_nth_error, H1.
  - apply nth_error_repeat. apply nth_error_Some. rewrite H. discriminate.
Qed.

Lemma _parseData_index_alignment_witness :
  let gridData :=
    _parseData (fun x => neg x) [(Fin 1, Fin 2); (NaN, Fin 5)]
      (fun p : number * number => p) in
  nth_error (GridData.positions gridData) (2 * 1) = Some NaN /\
  nth_error (GridData.positions gridData) (2 * 1 + 1) = Some (Fin 5) /\
  nth_error (GridData.positions64xyLow gridData) (2 * 1) = Some (neg NaN) /\
  nth_error (GridData.positions64xyLow gridData) (2 * 1 + 1)
  = Some (neg (Fin 5)) /\
  nth_error (GridData.weights gridData) 1 = Some (Fin 1).
Proof.
  apply (_parseData_index_alignment (fun x => neg x) (number * number)
           [(Fin 1, Fin 2); (NaN, Fin 5)] (fun p => p) 1 (NaN, Fin 5)).
  reflexivity.
Defined.

(** ** Further properties of the cell size *)

(** X10.  The longitude offset is the same in both hemispheres: it depends
    on the magnitude of a finite latitude only, whatever the cell size. *)
Theorem _calculateLonOffset_hemispheres (lat : R) (dx : number) :
  _calculateLonOffset (Fin (- lat)) dx = _calculateLonOffset (Fin lat) dx.
Proof.
  unfold _calculateLonOffset. rewrite !radians_Fin. cbn [Math_cos].
  replace (- lat * PI / 180) with (- (lat * PI / 180)) by lra.
  rewrite cos_neg. reflexivity.
Qed.

(** ** Input without a finite point *)

(** The alignment of [Infinity], the minimum bound when no point was read. *)
Lemma alignToCellBoundary_Infinity (c : R) :
  0 < c ->
  alignToCellBoundary Infinity NaN = NaN /\
  alignToCellBoundary Infinity (Fin c) = Infinity.
Proof.
  intros Hc. unfold alignToCellBoundary. cbn [lt].
  rewrite (Rltb_false 1 0) by lra. split; [reflexivity |].
  cbn [Math_abs].
  destruct (div_Infinity_pos c Hc) as [-> _]. cbn [Math_floor].
  destruct (mul_Infinity_pos c Hc) as [-> _].
  apply (mul_Infinity_pos 1). lra.
Qed.

(** Dividing by [NaN] gives [NaN]. *)
Lemma div_NaN_r (a : number) : div a NaN = NaN.
Proof. destruct a; reflexivity. Qed.

(** The longitude offset at the latitude [NaN]. *)
Lemma _calculateLonOffset_NaN (dx : number) :
  _calculateLonOffset NaN dx = NaN.
Proof.
  unfold _calculateLonOffset, Math_PI. cbn [mul div Math_cos].
  apply div_NaN_r.
Qed.

(** X18.  A latitude that is not finite gives the longitude offset [NaN],
    whatever the cell size: the cosine of [NaN] and of an infinity is
    [NaN]. *)
Theorem _calculateLonOffset_non_finite_latitude (dx : number) :
  _calculateLonOffset NaN dx = NaN /\
  _calculateLonOffset Infinity dx = NaN /\
  _calculateLonOffset NegInfinity dx = NaN.
Proof.
  pose proof PI_RGT_0 as Hpi.
  unfold _calculateLonOffset, Math_PI.
  destruct (mul_Infinity_pos PI Hpi) as [-> ->].
  assert (H180 : 0 < 180) by lra.
  destruct (div_Infinity_pos 180 H180) as [-> ->].
  cbn [mul div Math_cos]. rewrite !div_NaN_r. repeat split.
Qed.

(** X14.  When no point is fully finite (in particular on empty input) the
    mean latitude is [NaN], so the longitude offset is [NaN] whatever the
    cell size; and when the latitude offset is finite and positive, the
    vector handed to [Matrix4.translate] is [[NaN, -Infinity, 0]]. *)
Theorem _getGPUAggregationParams_without_finite_point
    (fp64LowPart : number -> number) (Matrix : Type)
    (Matrix4_translate : list number -> Matrix) (Point : Type)
    (data : list Point) (getPosition : Point -> number * number)
    (cellSizeMeters : number) :
  (forall p, In p data -> fullyFinite getPosition p = false) ->
  let gridData := _parseData fp64LowPart data getPosition in
  let gridOffset := _getGridOffset gridData cellSizeMeters in
  GridOffset.xOffset gridOffset = NaN /\
  (forall y : R,
      GridOffset.yOffset gridOffset = Fin y -> 0 < y ->
      Opts.gridTransformMatrix
        (_getGPUAggregationParams Matrix4_translate gridData gridOffset)
      = Matrix4_translate [NaN; NegInfinity; Fin 0]).
Proof.
  intros Hnone gridData gridOffset.
  assert (Hs : GridData.bounds gridData = sentinels).
  { destruct (_parseData_bounds_cases fp64LowPart Point getPosition data)
      as [[_ Hs] | (a & b & lo & hi & _ & _ & (q & x & Q & E) & _)];
      [exact Hs |].
    assert (F : fullyFinite getPosition q = true)
      by (apply fullyFinite_true; eauto).
    rewrite (Hnone q Q) in F. discriminate. }
  unfold GridData.bounds, sentinels in Hs. injection Hs as E1 E2 E3 E4.
  assert (Hx : GridOffset.xOffset gridOffset = NaN).
  { unfold gridOffset, _getGridOffset, _calculateGridLatLonOffset.
    cbn [GridOffset.xOffset]. rewrite E1, E2. cbn [add div].
    apply _calculateLonOffset_NaN. }
  split; [exact Hx |].
  intros y Ey Hy. unfold _getGPUAggregationParams.
  cbn [Opts.gridTransformMatrix]. rewrite Hx, Ey, E1, E3. cbn [add].
  destruct (alignToCellBoundary_Infinity y Hy) as (-> & ->).
  cbn [sub neg add mul]. rewrite signed_inf_neg by lra. reflexivity.
Qed.

Lemma _getGPUAggregationParams_without_finite_point_witness :
  let gridData :=
    _parseData (fun x => x) [(NaN, Fin 1); (Fin 2, NegInfinity)]
      (fun q : number * number => q) in
  Opts.gridTransformMatrix
    (_getGPUAggregationParams (fun v : list number => v) gridData
       (_getGridOffset gridData (Fin 1000)))
  = [NaN; NegInfinity; Fin 0].
Proof.
  assert (Hnone : forall p : number * number,
             In p [(NaN, Fin 1); (Fin 2, NegInfinity)] ->
             fullyFinite (fun q : number * number => q) p = false)
    by (intros p [<- | [<- | []]]; reflexivity).
  apply (proj2 (_getGPUAggregationParams_without_finite_point (fun x => x)
                  (list number) (fun v => v) (number * number)
                  [(NaN, Fin 1); (Fin 2, NegInfinity)] (fun q => q)
                  (Fin 1000) Hnone)
           (1000 / 6378000 * (180 / PI))).
  - apply _calculateLatOffset_Fin.
  - apply latOffset_pos. lra.
Defined.

(** X15.  The aggregation engine is run on the scanner's buffers, the cell
    size that is also returned as [gridOffset], the computed width, height
    and transform, the caller's [gpuAggregation] flag and the [fp64] flag,
    which is [false] when the caller leaves it out; the two buffers of its
    answer are returned as they are. *)
Theorem pointToDensityGridData_request (fp64LowPart : number -> number)
    (Matrix : Type) (Matrix4_translate : list number -> Matrix)
    (Point Buffer : Type) (data : list Point)
    (getPosition : Point -> number * number) (cellSizeMeters : number)
    (gpuGridAggregator : Aggregator Matrix Buffer) (gpuAggregation : bool)
    (fp64 : option bool) :
  let result :=
    pointToDensityGridData fp64LowPart Matrix4_translate data getPosition
      cellSizeMeters gpuGridAggregator gpuAggregation fp64 in
  let gridData := _parseData fp64LowPart data getPosition in
  let opts :=
    _getGPUAggregationParams Matrix4_translate gridData
      (_getGridOffset gridData cellSizeMeters) in
  let request :=
    RunArgs.mk
      (flatPositions getPosition data)
      (map fp64LowPart (flatPositions getPosition data))
      (repeat (Fin 1) (length data))
      (DensityGrid.gridOffset result)
      (Opts.width opts) (Opts.height opts) (Opts.gridTransformMatrix opts)
      gpuAggregation
      (match fp64 with Some b => b | None => false end) in
  DensityGrid.countsBuffer result
  = Aggregated.countsBuffer (run gpuGridAggregator request) /\
  DensityGrid.maxCountBuffer result
  = Aggregated.maxCountBuffer (run gpuGridAggregator request).
Proof.
  intros result gridData opts request.
  destruct (_parseData_loop_buffers fp64LowPart Point getPosition data
              _parseData_init) as (Hp & Hl & Hw).
  simpl in Hp, Hl, Hw.
  unfold request. rewrite <- Hl, <- Hp, <- Hw.
  split; reflexivity.
Qed.

(** ** Longer inputs *)

(** X17.  Reading more points can only widen the bounds: once a fully
    finite point was read, the bounds of a longer input are finite, with
    minima no greater and maxima no smaller. *)
Theorem _parseData_bounds_widen (fp64LowPart : number -> number)
    (Point : Type) (data more : list Point)
    (getPosition : Point -> number * number) :
  (exists p, In p data /\ fullyFinite getPosition p = true) ->
  exists a b c d a' b' c' d' : R,
    GridData.bounds (_parseData fp64LowPart data getPosition)
    = (Fin a, Fin b, Fin c, Fin d) /\
    GridData.bounds (_parseData fp64LowPart (data ++ more) getPosition)
    = (Fin a', Fin b', Fin c', Fin d') /\
    a' <= a /\ b <= b' /\ c' <= c /\ d <= d'.
Proof.
  intros (p & Hp & F).
  destruct (_parseData_bounds_cases fp64LowPart Point getPosition data)
    as [[Hnone _] | (a & b & c & d & Hb & _ & A1 & A2 & A3 & A4)].
  { rewrite (Hnone p Hp) in F. discriminate. }
  destruct (_parseData_bounds_cases fp64LowPart Point getPosition
              (data ++ more))
    as [[Hnone _] | (a' & b' & c' & d' & Hb' & Henc & _)].
  { rewrite (Hnone p) in F by (apply in_or_app; left; exact Hp).
    discriminate. }
  exists a, b, c, d, a', b', c', d'.
  split; [exact Hb |]. split; [exact Hb' |].
  assert (Hin : forall q, In q data -> In q (data ++ more))
    by (intros q Hq; apply in_or_app; left; exact Hq).
  destruct A1 as (q1 & x1 & Q1 & E1). destruct A2 as (q2 & x2 & Q2 & E2).
  destruct A3 as (q3 & x3 & Q3 & E3). destruct A4 as (q4 & x4 & Q4 & E4).
  pose proof (Henc _ _ _ (Hin _ Q1) E1). pose proof (Henc _ _ _ (Hin _ Q2) E2).
  pose proof (Henc _ _ _ (Hin _ Q3) E3). pose proof (Henc _ _ _ (Hin _ Q4) E4).
  repeat split; lra.
Qed.

Lemma _parseData_bounds_widen_witness :
  exists a b c d a' b' c' d' : R,
    GridData.bounds
      (_parseData (fun x => x) [(Fin 1, Fin 2)]
         (fun p : number * number => p))
    = (Fin a, Fin b, Fin c, Fin d) /\
    GridData.bounds
      (_parseData (fun x => x) ([(Fin 1, Fin 2)] ++ [(Fin (-3), Fin 4)])
         (fun p : number * number => p))
    = (Fin a', Fin b', Fin c', Fin d') /\
    a' <= a /\ b <= b' /\ c' <= c /\ d <= d'.
Proof.
  apply (_parseData_bounds_widen (fun x => x) (number * number)
           [(Fin 1, Fin 2)] [(Fin (-3), Fin 4)] (fun p => p)).
  exists (Fin 1, Fin 2). split; [left; reflexivity | reflexivity].
Defined.
